(** * Curriculum schedule and windowed dataset adapter

    A shallow embedding of the locally written logic of
    [04_training_long_sequences.ipynb]: the module constants, the function
    [get_sequence_length] and the class [CurriculumDataset].

    Python integers are unbounded, so they are [Z]; [//] is floor division,
    which is [Z.div] for every non-zero divisor, and raises
    [ZeroDivisionError] for a zero one.  Exceptions are the [Raise] case of
    [result].  Tensors live in a store, because [__getitem__] clones one and
    then writes into the clone in place. *)

From Stdlib Require Import ZArith QArith Qround Lia.
From stdpp Require Import base tactics option list gmap strings.

Local Open Scope Z_scope.

(** ** Exceptions and results *)

Inductive exception : Type :=
  | ZeroDivisionError
  | IndexError
  | KeyError
  | SystemError.

Inductive result (A : Type) : Type :=
  | Ok (a : A)
  | Raise (e : exception).

Arguments Ok {A} a.
Arguments Raise {A} e.

#[global] Instance result_ret : MRet result := λ A a, Ok a.
#[global] Instance result_bind : MBind result := λ A B f r,
  match r with
  | Ok a => f a
  | Raise e => Raise e
  end.

(** The value a computation returns, when it returns one. *)
Definition returned {A B : Type} (r : result (A * B)) : result A :=
  match r with
  | Ok (a, _) => Ok a
  | Raise e => Raise e
  end.

(** ** Python arithmetic *)

(** [a // b] on integers. *)
Definition floordiv (a b : Z) : result Z :=
  if decide (b = 0) then Raise ZeroDivisionError else Ok (a / b).

(** [min(a, b)] on integers. *)
Definition py_min (a b : Z) : Z := if decide (b < a) then b else a.

(** ** The curriculum schedule *)

(** The module-level variables that [get_sequence_length] reads. *)
Record Globals : Type := {
  max_length : Z;
  min_length : Z;
  num_epochs : Z
}.

(** The values the notebook assigns to them. *)
Definition notebook : Globals :=
  {| max_length := 4096; min_length := 1024; num_epochs := 3 |}.

(** [return min(max_length, min_length + (max_length - min_length) * epoch // num_epochs)]
    where [*] and [//] associate to the left. *)
Definition get_sequence_length (g : Globals) (epoch : Z) : result Z :=
  q ← floordiv ((max_length g - min_length g) * epoch) (num_epochs g);
  mret (py_min (max_length g) (min_length g + q)).

(** The domain the specification gives to the schedule. *)
Definition valid_globals (g : Globals) : Prop :=
  0 < min_length g ∧ min_length g ≤ max_length g ∧ 0 < num_epochs g.

(** The parameters the specification calls invalid. *)
Definition invalid_parameters (g : Globals) (epoch : Z) : Prop :=
  num_epochs g ≤ 0 ∨ max_length g < min_length g ∨ epoch < 0.

(** The closed form of the specification, with the quotient taken in the
    rationals and rounded down:
    [min(max_length, min_length + floor((max_length - min_length) * epoch / total_epochs))]. *)
Definition schedule_reference (m M T epoch : Z) : Z :=
  Z.min M (m + Qfloor (inject_Z (M - m) * inject_Z epoch / inject_Z T)%Q).

(** ** Tensors *)

(** An integer or boolean tensor of rank 0, 1 or 2. *)
Inductive tensor (A : Type) : Type :=
  | Scalar (a : A)
  | Vec (xs : list A)
  | Mat (rows : list (list A)).

Arguments Scalar {A} a.
Arguments Vec {A} xs.
Arguments Mat {A} rows.

(** [t == v]: the boolean tensor of the positions of [t] that hold [v]. *)
Definition eq_scalar (t : tensor Z) (v : Z) : tensor bool :=
  match t with
  | Scalar a => Scalar (bool_decide (a = v))
  | Vec xs => Vec (fmap (M := list) (λ a, bool_decide (a = v)) xs)
  | Mat rows => Mat (fmap (M := list) (fmap (M := list) (λ a, bool_decide (a = v))) rows)
  end.

(** One row of [t[mask] = v]; [None] when the row and its mask differ in
    length. *)
Fixpoint fill_row (xs : list Z) (mask : list bool) (v : Z) : option (list Z) :=
  match xs, mask with
  | [], [] => Some []
  | x :: xs', b :: mask' =>
      ys ← fill_row xs' mask' v; Some ((if b then v else x) :: ys)
  | _, _ => None
  end.

Fixpoint fill_rows (rows : list (list Z)) (mask : list (list bool)) (v : Z)
  : option (list (list Z)) :=
  match rows, mask with
  | [], [] => Some []
  | r :: rows', m :: mask' =>
      r' ← fill_row r m v; rs ← fill_rows rows' mask' v; Some (r' :: rs)
  | _, _ => None
  end.

(** The tensor that [t[mask] = v] leaves in place of [t], for a mask of the
    shape of [t], which is the only kind [__getitem__] builds; a mask of
    another shape is refused with an [IndexError]. *)
Definition masked_fill (t : tensor Z) (mask : tensor bool) (v : Z) : result (tensor Z) :=
  match t, mask with
  | Scalar a, Scalar b => Ok (Scalar (if b then v else a))
  | Vec xs, Vec bs =>
      match fill_row xs bs v with Some ys => Ok (Vec ys) | None => Raise IndexError end
  | Mat rows, Mat bss =>
      match fill_rows rows bss v with Some rs => Ok (Mat rs) | None => Raise IndexError end
  | _, _ => Raise IndexError
  end.

(** [t.squeeze(0)]: the first dimension is dropped when its size is 1. *)
Definition squeeze0 {A : Type} (t : tensor A) : tensor A :=
  match t with
  | Mat [row] => Vec row
  | Vec [a] => Scalar a
  | _ => t
  end.

(** ** The tensor store *)

(** A location is an index into the store, the list of the tensors
    allocated so far. *)
Abbreviation loc := nat (only parsing).
Abbreviation store := (list (tensor Z)) (only parsing).

(** A computation that may raise and may allocate or update tensors. *)
Definition M (A : Type) : Type := store → result (A * store).

#[global] Instance M_ret : MRet M := λ A a σ, Ok (a, σ).
#[global] Instance M_bind : MBind M := λ A B f c σ,
  match c σ with
  | Ok (a, σ') => f a σ'
  | Raise e => Raise e
  end.

Definition lift {A : Type} (r : result A) : M A := λ σ,
  match r with
  | Ok a => Ok (a, σ)
  | Raise e => Raise e
  end.

Definition alloc (t : tensor Z) : M loc := λ σ, Ok (length σ, σ ++ [t]).

(** A reference the program holds is always live; the interpreter's
    [SystemError] stands for the case that can not happen. *)
Definition load (l : loc) : M (tensor Z) := λ σ,
  match σ !! l with
  | Some t => Ok (t, σ)
  | None => Raise SystemError
  end.

Definition write (l : loc) (t : tensor Z) : M unit := λ σ,
  match σ !! l with
  | Some _ => Ok ((), <[l := t]> σ)
  | None => Raise SystemError
  end.

(** [t.clone()]: a new tensor with the elements of [t]. *)
Definition clone (l : loc) : M loc := t ← load l; alloc t.

(** [t[mask] = v], in place. *)
Definition setitem_mask (l : loc) (mask : tensor bool) (v : Z) : M unit :=
  t ← load l; t' ← lift (masked_fill t mask v); write l t'.

(** [d[key]] on a dict. *)
Definition dict_getitem {V : Type} (d : gmap string V) (key : string) : M V :=
  lift (match d !! key with Some v => Ok v | None => Raise KeyError end).

(** ** The collaborators *)

(** A record of the corpus: the wikitext rows have the one column ['text']. *)
Record Item : Type := { text : string }.

(** [dataset[key]] for an integer key: the corpus follows Python's sequence
    protocol, where a negative key counts from the end and a key outside
    [-len, len) is an [IndexError]. *)
Definition dataset_getitem (dataset : list Item) (key : Z) : result Item :=
  let size := Z.of_nat (length dataset) in
  let i := if decide (key < 0) then key + size else key in
  if decide (0 ≤ i < size) then
    match dataset !! Z.to_nat i with
    | Some item => Ok item
    | None => Raise IndexError
    end
  else Raise IndexError.

(** The tokenizer: its padding token (padding to a length needs one) and the
    two rows it computes for a text under
    [truncation=True, padding='max_length', max_length=n]. *)
Record Tokenizer : Type := {
  pad_token_id : Z;
  input_ids_row : string → Z → list Z;
  attention_mask_row : string → Z → list Z
}.

(** [tokenizer(text, truncation=True, padding='max_length', max_length=n,
    return_tensors='pt')]: a dict of new tensors of shape (1, n). *)
Definition tokenizer_call (tok : Tokenizer) (txt : string) (n : Z) : M (gmap string loc) :=
  a ← alloc (Mat [input_ids_row tok txt n]);
  b ← alloc (Mat [attention_mask_row tok txt n]);
  mret (<["attention_mask" := b]> (<["input_ids" := a]> ∅)).

(** What the specification asks of the tokenizer: both rows have exactly the
    requested number of positions. *)
Definition pads_to_max_length (tok : Tokenizer) : Prop :=
  ∀ txt n, 0 ≤ n →
    Z.of_nat (length (input_ids_row tok txt n)) = n ∧
    Z.of_nat (length (attention_mask_row tok txt n)) = n.

(** ** CurriculumDataset *)

Record CurriculumDataset : Type := {
  dataset : list Item;
  tokenizer : Tokenizer;
  seq_length : Z
}.

Definition __init__ (g : Globals) (dataset : list Item) (tokenizer : Tokenizer) (epoch : Z)
  : result CurriculumDataset :=
  n ← get_sequence_length g epoch;
  mret {| dataset := dataset; tokenizer := tokenizer; seq_length := n |}.

Definition __len__ (self : CurriculumDataset) : Z := Z.of_nat (length (dataset self)).

(** [{key: val.squeeze(0) for key, val in encoding.items()}] *)
Definition squeeze_items (encoding : gmap string loc) : M (gmap string (tensor Z)) :=
  map_fold (λ key val acc, out ← acc; t ← load val; mret (<[key := squeeze0 t]> out))
           (mret ∅) encoding.

Definition __getitem__ (self : CurriculumDataset) (idx : Z) : M (gmap string (tensor Z)) :=
  item ← lift (dataset_getitem (dataset self) idx);
  encoding ← tokenizer_call (tokenizer self) (text item) (seq_length self);
  (* encoding['labels'] = encoding['input_ids'].clone() *)
  ids ← dict_getitem encoding "input_ids";
  copy ← clone ids;
  let encoding := <["labels" := copy]> encoding in
  (* encoding['labels'][encoding['input_ids'] == self.tokenizer.pad_token_id] = -100 *)
  labels ← dict_getitem encoding "labels";
  ids ← dict_getitem encoding "input_ids";
  t ← load ids;
  setitem_mask labels (eq_scalar t (pad_token_id (tokenizer self))) (-100);;
  squeeze_items encoding.

(** ** A small tokenizer and corpus to run the adapter on *)

(** One token per character, cut to [n] tokens and padded on the right with
    the padding token 1. *)
Definition char_tokenizer : Tokenizer :=
  let tokens txt := (λ c, Z.of_N (Ascii.N_of_ascii c)) <$> String.list_ascii_of_string txt in
  {| pad_token_id := 1;
     input_ids_row txt n :=
       take (Z.to_nat n) (tokens txt) ++ replicate (Z.to_nat n - length (tokens txt)) 1;
     attention_mask_row txt n :=
       replicate (Z.to_nat n `min` length (tokens txt))%nat 1 ++
       replicate (Z.to_nat n - length (tokens txt)) 0 |}.

Definition two_rows : list Item := [ {| text := "ab" |}; {| text := "wxyz" |} ].

(** A tokenizer that wraps the tokens of the text in a start token 0 and an
    end token 2, as the Longformer tokenizer does.  Truncation cuts text
    tokens only, and is given up when it would have to cut all of them: for
    [n <= 2] the row is the whole text with its two special tokens, longer
    than [n].  Padding is with the token 1, on the right. *)
Definition special_tokens_tokenizer : Tokenizer :=
  let tokens txt := (λ c, Z.of_N (Ascii.N_of_ascii c)) <$> String.list_ascii_of_string txt in
  let kept txt n :=
    if decide (Z.of_nat (length (tokens txt)) + 2 ≤ n) then tokens txt
    else if decide (2 < n) then take (Z.to_nat (n - 2)) (tokens txt)
    else tokens txt in
  {| pad_token_id := 1;
     input_ids_row txt n :=
       [0] ++ kept txt n ++ [2] ++ replicate (Z.to_nat n - (length (kept txt n) + 2)) 1;
     attention_mask_row txt n :=
       replicate (length (kept txt n) + 2) 1 ++
       replicate (Z.to_nat n - (length (kept txt n) + 2)) 0 |}.

(** Valid schedule parameters under which every epoch gets the length 1. *)
Definition length_one : Globals :=
  {| max_length := 1; min_length := 1; num_epochs := 1 |}.

(** An adapter over the two rows, with three positions per example. *)
Definition two_row_adapter : CurriculumDataset :=
  {| dataset := two_rows; tokenizer := char_tokenizer; seq_length := 3 |}.

(** ** The windowed example of the specification *)

(** The label of a token: the ignore sentinel -100 for the padding token,
    the token itself otherwise. *)
Definition label_of (pad : Z) (token : Z) : Z :=
  if bool_decide (token = pad) then -100 else token.

(** The example the specification describes for a text and a length: the
    token ids, the mask, and the labels, which are the token ids with every
    padding token replaced by the sentinel. *)
Definition windowed_example (tok : Tokenizer) (txt : string) (n : Z) : gmap string (tensor Z) :=
  <["labels" := Vec (label_of (pad_token_id tok) <$> input_ids_row tok txt n)]>
  (<["attention_mask" := Vec (attention_mask_row tok txt n)]>
  (<["input_ids" := Vec (input_ids_row tok txt n)]> ∅)).

(** The tensors one call of [__getitem__] leaves in the store. *)
Definition new_tensors (tok : Tokenizer) (txt : string) (n : Z) : store :=
  [ Mat [input_ids_row tok txt n];
    Mat [attention_mask_row tok txt n];
    Mat [label_of (pad_token_id tok) <$> input_ids_row tok txt n] ].

(** Two calls of [self[idx]], one after the other. *)
Definition getitem_twice (self : CurriculumDataset) (idx : Z)
  : M (gmap string (tensor Z) * gmap string (tensor Z)) :=
  first ← __getitem__ self idx;
  second ← __getitem__ self idx;
  mret (first, second).

(** ** The epoch loop *)

(** [range(n)]: the integers from 0 up to [n - 1], none for [n <= 0]. *)
Definition py_range (n : Z) : list Z := Z.of_nat <$> seq 0 (Z.to_nat n).

(** [splits[name]] on the dict of corpus splits. *)
Definition splits_getitem (splits : gmap string (list Item)) (name : string)
  : result (list Item) :=
  match splits !! name with
  | Some rows => Ok rows
  | None => Raise KeyError
  end.

(** What one pass of the loop builds and prints before it hands over to the
    trainer: the two adapters, and the three numbers of the line
    [Epoch {epoch + 1}/{num_epochs}, Sequence Length: {get_sequence_length(epoch)}]. *)
Record EpochRun : Type := {
  train_dataset : CurriculumDataset;
  eval_dataset : CurriculumDataset;
  shown_epoch : Z;
  shown_epochs : Z;
  shown_length : Z
}.

(** The body of the loop, up to the calls into the trainer. *)
Definition epoch_body (g : Globals) (splits : gmap string (list Item)) (tok : Tokenizer)
    (epoch : Z) : result EpochRun :=
  train ← splits_getitem splits "train";
  train_dataset ← __init__ g train tok epoch;
  validation ← splits_getitem splits "validation";
  eval_dataset ← __init__ g validation tok epoch;
  n ← get_sequence_length g epoch;
  mret {| train_dataset := train_dataset; eval_dataset := eval_dataset;
          shown_epoch := epoch + 1; shown_epochs := num_epochs g; shown_length := n |}.

(** [for x in xs: body(x)], stopping at the first exception. *)
Fixpoint for_each {A B : Type} (body : A → result B) (xs : list A) : result (list B) :=
  match xs with
  | [] => Ok []
  | x :: xs' => b ← body x; bs ← for_each body xs'; mret (b :: bs)
  end.

(** [for epoch in range(num_epochs): ...] *)
Definition training_loop (g : Globals) (splits : gmap string (list Item)) (tok : Tokenizer)
  : result (list EpochRun) :=
  for_each (epoch_body g splits tok) (py_range (num_epochs g)).

(** ** The attention window *)

(** [xs * n] on a list: [n] copies of [xs] in a row, none for [n <= 0]. *)
Definition list_mul {A : Type} (xs : list A) (n : Z) : list A :=
  mjoin (replicate (Z.to_nat n) xs).

(** [xs[key]] on a list. *)
Definition list_getitem {A : Type} (xs : list A) (key : Z) : result A :=
  let size := Z.of_nat (length xs) in
  let i := if decide (key < 0) then key + size else key in
  if decide (0 ≤ i < size) then
    match xs !! Z.to_nat i with
    | Some x => Ok x
    | None => Raise IndexError
    end
  else Raise IndexError.

(** The two attributes of [model.config] that the lines read and write. *)
Record Config : Type := {
  num_hidden_layers : Z;
  attention_window : list Z
}.

(** [model.config.attention_window = [512] * model.config.num_hidden_layers]
    and then the read [model.config.attention_window[0]] of the line that
    prints the size.  The result is the configuration after the assignment,
    which stays as assigned when the read raises, and the size printed or
    the exception of the read. *)
Definition set_attention_window (config : Config) : Config * result Z :=
  let config := {| num_hidden_layers := num_hidden_layers config;
                   attention_window := list_mul [512] (num_hidden_layers config) |} in
  (config, list_getitem (attention_window config) 0).

(** ** The module tree and [replace_attention_layers] *)

(** A [torch.nn.Linear]: its two sizes, its weight and its optional bias.
    The parameters are of an abstract type [W]: the code never reads them. *)
Record linear (W : Type) : Type := {
  in_features : Z;
  out_features : Z;
  weight : W;
  bias : option W
}.

Arguments in_features {W} l.
Arguments out_features {W} l.
Arguments weight {W} l.
Arguments bias {W} l.

(** A model as the tree that [children()] walks: a linear layer, which has
    no children; a Longformer self-attention layer, whose children are its
    six projections; any other module, with its children in order.  No
    module is taken to occur twice in the tree. *)
#[warnings="-register-all"]
Inductive module (W : Type) : Type :=
  | Linear (l : linear W)
  | LongformerSelfAttention (embed_dim num_heads head_dim : Z)
      (query key value query_global key_global value_global : linear W)
  | Container (children : list (module W)).

Arguments Linear {W} l.
Arguments LongformerSelfAttention {W} embed_dim num_heads head_dim
  query key value query_global key_global value_global.
Arguments Container {W} children.

(** A tree without the parameters and sizes of the global projections: what
    is left of them is whether each has a bias. *)
#[warnings="-register-all"]
Inductive outline (W : Type) : Type :=
  | OLinear (l : linear W)
  | OSelfAttention (embed_dim num_heads head_dim : Z) (query key value : linear W)
      (query_global_bias key_global_bias value_global_bias : bool)
  | OContainer (children : list (outline W)).

Arguments OLinear {W} l.
Arguments OSelfAttention {W} embed_dim num_heads head_dim query key value
  query_global_bias key_global_bias value_global_bias.
Arguments OContainer {W} children.

(** [l.bias is not None] *)
Definition has_bias {W : Type} (l : linear W) : bool :=
  match bias l with Some _ => true | None => false end.

Fixpoint outline_of {W : Type} (m : module W) : outline W :=
  match m with
  | Linear l => OLinear l
  | LongformerSelfAttention e h d q k v qg kg vg =>
      OSelfAttention e h d q k v (has_bias qg) (has_bias kg) (has_bias vg)
  | Container children => OContainer (outline_of <$> children)
  end.

(** The self-attention layers of a tree, in the order of the walk. *)
Fixpoint attention_layers {W : Type} (m : module W) : list (module W) :=
  match m with
  | Linear _ => []
  | LongformerSelfAttention _ _ _ _ _ _ _ _ _ => [m]
  | Container children => mjoin (attention_layers <$> children)
  end.

(** A self-attention layer whose three global projections map [embed_dim]
    features to [num_heads * head_dim] features. *)
Definition global_sizes_fit {W : Type} (m : module W) : Prop :=
  match m with
  | LongformerSelfAttention e h d _ _ _ qg kg vg =>
      Forall (λ l, in_features l = e ∧ out_features l = h * d) [qg; kg; vg]
  | _ => True
  end.

Section Modules.
Context {W Rng : Type}.

(** The initialiser of a new parameter of a given shape: it draws from
    the random number generator. *)
Variable draw : list Z → Rng → W * Rng.

(** [torch.nn.Linear(n_in, n_out, bias=with_bias)]: the weight is drawn
    first, then the bias when there is one. *)
Definition new_linear (n_in n_out : Z) (with_bias : bool) (r : Rng) : linear W * Rng :=
  let '(w, r) := draw [n_out; n_in] r in
  if with_bias then
    let '(b, r) := draw [n_out] r in
    ({| in_features := n_in; out_features := n_out; weight := w; bias := Some b |}, r)
  else
    ({| in_features := n_in; out_features := n_out; weight := w; bias := None |}, r).

(** The function updates the tree in place; here it returns the updated
    tree, and the generator after the draws. *)
Fixpoint replace_attention_layers (m : module W) (r : Rng) : module W * Rng :=
  match m with
  | Linear l => (Linear l, r)
  | LongformerSelfAttention e h d q k v qg kg vg =>
      let '(qg', r) := new_linear e (h * d) (has_bias qg) r in
      let '(kg', r) := new_linear e (h * d) (has_bias kg) r in
      let '(vg', r) := new_linear e (h * d) (has_bias vg) r in
      (* the children are the six linear layers: the walk changes none *)
      (LongformerSelfAttention e h d q k v qg' kg' vg', r)
  | Container children =>
      let '(children', r) :=
        (fix walk (cs : list (module W)) (r : Rng) : list (module W) * Rng :=
           match cs with
           | [] => ([], r)
           | c :: cs' =>
               let '(c', r) := replace_attention_layers c r in
               let '(cs'', r) := walk cs' r in
               (c' :: cs'', r)
           end) children r in
      (Container children', r)
  end.

(** The walk over the children of a module, by its own name. *)
Fixpoint walk_children (cs : list (module W)) (r : Rng) : list (module W) * Rng :=
  match cs with
  | [] => ([], r)
  | c :: cs' =>
      let '(c', r) := replace_attention_layers c r in
      let '(cs'', r) := walk_children cs' r in
      (c' :: cs'', r)
  end.
End Modules.

(** A generator that counts its draws, and parameters that record which
    draw made them, to run the function on. *)
Definition counting_draw (shape : list Z) (r : nat) : (list Z * nat) * nat :=
  ((shape, r), S r).

Definition pretrained (n_in n_out : Z) (with_bias : bool) : linear (list Z * nat) :=
  {| in_features := n_in; out_features := n_out; weight := ([n_out; n_in], 0%nat);
     bias := if with_bias then Some ([n_out], 0%nat) else None |}.

(** The same layer sizes as [pretrained], with parameters of another origin. *)
Definition finetuned (n_in n_out : Z) (with_bias : bool) : linear (list Z * nat) :=
  {| in_features := n_in; out_features := n_out; weight := ([n_out; n_in], 7%nat);
     bias := if with_bias then Some ([n_out], 7%nat) else None |}.

Definition small_model : module (list Z * nat) :=
  Container
    [ Linear (pretrained 8 8 true);
      Container
        [ LongformerSelfAttention 8 2 4
            (pretrained 8 8 true) (pretrained 8 8 true) (pretrained 8 8 true)
            (pretrained 8 8 true) (pretrained 8 8 false) (pretrained 8 8 true) ] ].

(** [small_model] with other global projections, of other sizes even. *)
Definition small_model_variant : module (list Z * nat) :=
  Container
    [ Linear (pretrained 8 8 true);
      Container
        [ LongformerSelfAttention 8 2 4
            (pretrained 8 8 true) (pretrained 8 8 true) (pretrained 8 8 true)
            (finetuned 8 8 true) (finetuned 5 6 false) (finetuned 8 8 true) ] ].

(** A model without a self-attention layer. *)
Definition plain_model : module (list Z * nat) :=
  Container [ Linear (pretrained 8 8 true); Container []; Linear (pretrained 8 2 false) ].

(** The two splits of the corpus, to run the loop on. *)
Definition two_splits : gmap string (list Item) :=
  <["validation" := [ {| text := "wxyz" |} ]]> (<["train" := two_rows]> ∅).

(** The pass of the loop over [two_splits] that shows epoch [epoch + 1] of 3
    and the length [n]. *)
Definition pass_over_two_splits (epoch n : Z) : EpochRun :=
  {| train_dataset := {| dataset := two_rows; tokenizer := char_tokenizer; seq_length := n |};
     eval_dataset :=
       {| dataset := [ {| text := "wxyz" |} ]; tokenizer := char_tokenizer; seq_length := n |};
     shown_epoch := epoch + 1; shown_epochs := 3; shown_length := n |}.

Example replace_small_model :
  replace_attention_layers counting_draw small_model 0%nat
  = (Container
       [ Linear (pretrained 8 8 true);
         Container
           [ LongformerSelfAttention 8 2 4
               (pretrained 8 8 true) (pretrained 8 8 true) (pretrained 8 8 true)
               {| in_features := 8; out_features := 8; weight := ([8; 8], 0%nat);
                  bias := Some ([8], 1%nat) |}
               {| in_features := 8; out_features := 8; weight := ([8; 8], 2%nat);
                  bias := None |}
               {| in_features := 8; out_features := 8; weight := ([8; 8], 3%nat);
                  bias := Some ([8], 4%nat) |} ] ],
     5%nat).
Proof. reflexivity. Qed.

Example loop_over_two_splits :
  training_loop notebook two_splits char_tokenizer
  = Ok [pass_over_two_splits 0 1024; pass_over_two_splits 1 2048; pass_over_two_splits 2 3072].
Proof. reflexivity. Qed.

Example special_tokens_truncated :
  input_ids_row special_tokens_tokenizer "wxyz" 5 = [0; 119; 120; 121; 2] ∧
  input_ids_row special_tokens_tokenizer "ab" 6 = [0; 97; 98; 2; 1; 1] ∧
  input_ids_row special_tokens_tokenizer "ab" 1 = [0; 97; 98; 2].
Proof. repeat split. Qed.

Example schedule_epoch_1 : get_sequence_length notebook 1 = Ok 2048.
Proof. reflexivity. Qed.

Example getitem_row_0 :
  returned (__getitem__ two_row_adapter 0 [])
  = Ok (<["labels" := Vec [97; 98; -100]]>
        (<["attention_mask" := Vec [1; 1; 0]]> (<["input_ids" := Vec [97; 98; 1]]> ∅))).
Proof. vm_compute. reflexivity. Qed.

(** The call leaves the token ids as the tokenizer made them: only the clone
    is written to. *)
Example getitem_row_0_store :
  ∃ ex, __getitem__ two_row_adapter 0 []
        = Ok (ex, [Mat [[97; 98; 1]]; Mat [[1; 1; 0]]; Mat [[97; 98; -100]]]).
Proof. eexists. vm_compute. reflexivity. Qed.

Example getitem_row_1_truncated :
  returned (__getitem__ two_row_adapter 1 [])
  = Ok (<["labels" := Vec [119; 120; 121]]>
        (<["attention_mask" := Vec [1; 1; 1]]> (<["input_ids" := Vec [119; 120; 121]]> ∅))).
Proof. vm_compute. reflexivity. Qed.

Example getitem_past_the_end : __getitem__ two_row_adapter 2 [] = Raise IndexError.
Proof. reflexivity. Qed.

Example getitem_before_the_start : __getitem__ two_row_adapter (-3) [] = Raise IndexError.
Proof. reflexivity. Qed.

Example getitem_last_row :
  returned (__getitem__ two_row_adapter (-1) []) = returned (__getitem__ two_row_adapter 1 []).
Proof. vm_compute. reflexivity. Qed.

Example schedule_zero_epochs :
  get_sequence_length {| max_length := 4096; min_length := 1024; num_epochs := 0 |} 1
  = Raise ZeroDivisionError.
Proof. reflexivity. Qed.

Example schedule_negative_epoch : get_sequence_length notebook (-2) = Ok (-1024).
Proof. reflexivity. Qed.

(** ** The schedule: auxiliary facts *)

Lemma py_min_is_min (a b : Z) : py_min a b = Z.min a b.
Proof. unfold py_min. case_decide; lia. Qed.

Lemma floordiv_nonzero (a b : Z) : b ≠ 0 → floordiv a b = Ok (a / b).
Proof. intros Hb. unfold floordiv. case_decide; [done | reflexivity]. Qed.

Lemma floordiv_zero (a : Z) : floordiv a 0 = Raise ZeroDivisionError.
Proof. reflexivity. Qed.

(** Rounding the rational quotient down is integer floor division. *)
Lemma Qfloor_quotient (a b T : Z) :
  0 < T → Qfloor (inject_Z a * inject_Z b / inject_Z T)%Q = a * b / T.
Proof.
  intros HT. destruct T as [|p|p]; try lia.
  unfold Qdiv, Qinv, Qmult, inject_Z, Qfloor. cbn [Qnum Qden].
  f_equal; lia.
Qed.

(** What the function computes whenever the division is defined. *)
Lemma get_sequence_length_value (g : Globals) (epoch : Z) :
  num_epochs g ≠ 0 →
  get_sequence_length g epoch =
    Ok (Z.min (max_length g)
              (min_length g + (max_length g - min_length g) * epoch / num_epochs g)).
Proof.
  intros HT. unfold get_sequence_length.
  rewrite floordiv_nonzero by done. cbn. by rewrite py_min_is_min.
Qed.

Lemma scaled_quotient_mono (d T a b : Z) :
  0 ≤ d → 0 < T → a ≤ b → d * a / T ≤ d * b / T.
Proof.
  intros Hd HT Hab. apply Z.div_le_mono; [done|].
  by apply Z.mul_le_mono_nonneg_l.
Qed.

(** ** The schedule: properties *)

(** C1. For an epoch [>= 0], a minimum length [m > 0], a maximum length
    [M >= m] and [T > 0] epochs, [get_sequence_length] returns exactly the
    closed form [min(M, m + floor((M - m) * epoch / T))] of the
    specification. *)
Theorem get_sequence_length_closed_form (m M T epoch : Z) :
  0 ≤ epoch → 0 < m → m ≤ M → 0 < T →
  get_sequence_length {| max_length := M; min_length := m; num_epochs := T |} epoch
  = Ok (schedule_reference m M T epoch).
Proof.
  intros _ _ _ HT. rewrite get_sequence_length_value by (cbn; lia). cbn.
  unfold schedule_reference. by rewrite Qfloor_quotient.
Qed.

Lemma get_sequence_length_closed_form_witness :
  get_sequence_length {| max_length := 4096; min_length := 1024; num_epochs := 3 |} 2
  = Ok (schedule_reference 1024 4096 3 2).
Proof. apply (get_sequence_length_closed_form 1024 4096 3 2); lia. Defined.

(** C2, as the specification states it, fails: the notebook's own constants
    with the negative epoch [-1] are invalid parameters, and the function
    returns the length 0 instead of raising. *)
Lemma invalid_parameters_not_rejected :
  invalid_parameters notebook (-1) ∧
  get_sequence_length notebook (-1) = Ok 0 ∧
  ¬ (∀ g epoch, invalid_parameters g epoch → ∃ e, get_sequence_length g epoch = Raise e).
Proof.
  assert (Hinv : invalid_parameters notebook (-1)) by (unfold invalid_parameters; cbn; lia).
  split; [exact Hinv|]. split; [reflexivity|].
  intros Hall. destruct (Hall notebook (-1) Hinv) as [e He]. discriminate He.
Qed.

(** C2, amended. The function validates nothing. Of the invalid parameters
    only [total_epochs = 0] makes it fail, with the [ZeroDivisionError] of
    the division; for a negative [total_epochs], for
    [max_length < min_length] and for a negative epoch it returns
    [min(max_length, min_length + (max_length - min_length) * epoch // total_epochs)]. *)
Theorem get_sequence_length_invalid_parameters (g : Globals) (epoch : Z) :
  invalid_parameters g epoch →
  get_sequence_length g epoch =
    if decide (num_epochs g = 0) then Raise ZeroDivisionError
    else Ok (Z.min (max_length g)
                   (min_length g + (max_length g - min_length g) * epoch / num_epochs g)).
Proof.
  intros _. case_decide as HT.
  - unfold get_sequence_length. rewrite HT. reflexivity.
  - by apply get_sequence_length_value.
Qed.

Lemma get_sequence_length_invalid_parameters_witness :
  invalid_parameters {| max_length := 10; min_length := 20; num_epochs := -4 |} (-3) ∧
  get_sequence_length {| max_length := 10; min_length := 20; num_epochs := -4 |} (-3) = Ok 10.
Proof.
  assert (Hinv : invalid_parameters {| max_length := 10; min_length := 20; num_epochs := -4 |} (-3))
    by (unfold invalid_parameters; cbn; lia).
  split; [exact Hinv|].
  exact (get_sequence_length_invalid_parameters _ _ Hinv).
Defined.

(** C6. For [T > 0], [m > 0], [M >= m] and epochs [0 <= epoch_a < epoch_b],
    the schedule returns at both epochs and is non-decreasing:
    [schedule(epoch_a) <= schedule(epoch_b)]. *)
Theorem get_sequence_length_monotone (m M T epoch_a epoch_b : Z) :
  0 < T → 0 < m → m ≤ M → 0 ≤ epoch_a → epoch_a < epoch_b →
  ∃ a b,
    get_sequence_length {| max_length := M; min_length := m; num_epochs := T |} epoch_a = Ok a ∧
    get_sequence_length {| max_length := M; min_length := m; num_epochs := T |} epoch_b = Ok b ∧
    a ≤ b.
Proof.
  intros HT Hm HM Ha Hab.
  eexists _, _. rewrite !get_sequence_length_value by (cbn; lia). cbn.
  split; [reflexivity|]. split; [reflexivity|].
  pose proof (scaled_quotient_mono (M - m) T epoch_a epoch_b). lia.
Qed.

Lemma get_sequence_length_monotone_witness :
  ∃ a b,
    get_sequence_length {| max_length := 4096; min_length := 1024; num_epochs := 3 |} 1 = Ok a ∧
    get_sequence_length {| max_length := 4096; min_length := 1024; num_epochs := 3 |} 5 = Ok b ∧
    a ≤ b.
Proof. apply (get_sequence_length_monotone 1024 4096 3 1 5); lia. Defined.

(** C7. For [m > 0], [M >= m] and [T > 0], the schedule is [m] at epoch 0,
    is at most [M] at every epoch [>= 0], and is [M] at every epoch [>= T]. *)
Theorem get_sequence_length_bounds (m M T : Z) :
  0 < m → m ≤ M → 0 < T →
  let g := {| max_length := M; min_length := m; num_epochs := T |} in
  get_sequence_length g 0 = Ok m ∧
  (∀ epoch, 0 ≤ epoch → ∃ n, get_sequence_length g epoch = Ok n ∧ n ≤ M) ∧
  (∀ epoch, T ≤ epoch → get_sequence_length g epoch = Ok M).
Proof.
  intros Hm HM HT g. subst g. repeat split.
  - rewrite get_sequence_length_value by (cbn; lia). cbn.
    rewrite Z.mul_0_r, Z.div_0_l by lia. f_equal. lia.
  - intros epoch _. eexists. rewrite get_sequence_length_value by (cbn; lia).
    split; [reflexivity|]. cbn. lia.
  - intros epoch He. rewrite get_sequence_length_value by (cbn; lia). cbn.
    f_equal.
    pose proof (scaled_quotient_mono (M - m) T T epoch).
    assert ((M - m) * T / T = M - m) by (apply Z.div_mul; lia).
    lia.
Qed.

Lemma get_sequence_length_bounds_witness :
  get_sequence_length notebook 0 = Ok 1024 ∧
  (∀ epoch, 0 ≤ epoch → ∃ n, get_sequence_length notebook epoch = Ok n ∧ n ≤ 4096) ∧
  (∀ epoch, 3 ≤ epoch → get_sequence_length notebook epoch = Ok 4096).
Proof. apply (get_sequence_length_bounds 1024 4096 3); lia. Defined.

(** C8. With the notebook's constants [min_length = 1024],
    [max_length = 4096] and [num_epochs = 3], the schedule is 1024 at
    epoch 0, 2048 at epoch 1, 3072 at epoch 2 and 4096 at epoch 3. *)
Theorem get_sequence_length_notebook :
  min_length notebook = 1024 ∧ max_length notebook = 4096 ∧ num_epochs notebook = 3 ∧
  get_sequence_length notebook 0 = Ok 1024 ∧
  get_sequence_length notebook 1 = Ok 2048 ∧
  get_sequence_length notebook 2 = Ok 3072 ∧
  get_sequence_length notebook 3 = Ok 4096.
Proof. repeat split. Qed.

(** ** The store monad: how each step runs *)

Lemma bind_run {A B : Type} (c : M A) (f : A → M B) (σ : store) :
  (c ≫= f) σ = match c σ with Ok (a, σ') => f a σ' | Raise e => Raise e end.
Proof. reflexivity. Qed.

Lemma lookup_new (σ new : store) (i : nat) : (σ ++ new) !! (length σ + i)%nat = new !! i.
Proof. rewrite lookup_app_r by lia. f_equal. lia. Qed.

Lemma load_new (σ new : store) (i : nat) (t : tensor Z) :
  new !! i = Some t → load (length σ + i)%nat (σ ++ new) = Ok (t, σ ++ new).
Proof. intros Ht. unfold load. by rewrite lookup_new, Ht. Qed.

Lemma write_new (σ new : store) (i : nat) (t : tensor Z) :
  is_Some (new !! i) →
  write (length σ + i)%nat t (σ ++ new) = Ok ((), σ ++ <[i := t]> new).
Proof.
  intros [t' Ht']. unfold write. by rewrite lookup_new, Ht', insert_app_r.
Qed.

(** ** Masking a tensor with its own padding positions *)

Lemma fill_row_eq_scalar (xs : list Z) (pad v : Z) :
  fill_row xs ((λ a, bool_decide (a = pad)) <$> xs) v
  = Some ((λ a, if bool_decide (a = pad) then v else a) <$> xs).
Proof.
  induction xs as [|x xs IH]; [reflexivity|].
  cbn. rewrite IH. reflexivity.
Qed.

Lemma masked_fill_row (xs : list Z) (pad : Z) :
  masked_fill (Mat [xs]) (eq_scalar (Mat [xs]) pad) (-100) = Ok (Mat [label_of pad <$> xs]).
Proof. cbn. rewrite fill_row_eq_scalar. reflexivity. Qed.

(** ** How [__getitem__] runs *)

Lemma tokenizer_call_run (tok : Tokenizer) (txt : string) (n : Z) (σ : store) :
  tokenizer_call tok txt n σ
  = Ok (<["attention_mask" := (length σ + 1)%nat]> (<["input_ids" := (length σ + 0)%nat]> ∅),
        σ ++ [Mat [input_ids_row tok txt n]; Mat [attention_mask_row tok txt n]]).
Proof.
  unfold tokenizer_call. rewrite bind_run. unfold alloc at 1.
  rewrite bind_run. unfold alloc at 1. cbn.
  rewrite length_app, <- app_assoc. cbn. rewrite Nat.add_0_r. reflexivity.
Qed.

(** The comprehension reads every tensor of the dict and drops its first
    dimension; it leaves the store as it is. *)
Lemma squeeze_items_run (encoding : gmap string nat) (σ : store) :
  map_Forall (λ _ l, is_Some (σ !! l)) encoding →
  squeeze_items encoding σ = Ok (omap (λ l, squeeze0 <$> σ !! l) encoding, σ).
Proof.
  unfold squeeze_items.
  apply (map_fold_weak_ind
    (λ (r : M (gmap string (tensor Z))) (m : gmap string nat),
       map_Forall (λ _ l, is_Some (σ !! l)) m →
       r σ = Ok (omap (λ l, squeeze0 <$> σ !! l) m, σ))).
  - intros _. by rewrite omap_empty.
  - intros key l m r Hfresh IH Hlive.
    apply map_Forall_insert in Hlive as [[t Ht] Hlive]; [|done].
    rewrite bind_run, (IH Hlive), bind_run. unfold load. rewrite Ht. cbn.
    by rewrite (omap_insert_Some _ _ _ _ (squeeze0 t)) by (by rewrite Ht).
Qed.

(** The stateful code computes the example of the specification: a call
    either raises what the corpus raises, or returns the windowed example of
    the record and leaves three new tensors behind the ones that were in
    the store, none of which it touches. *)
Lemma getitem_run (self : CurriculumDataset) (idx : Z) (σ : store) :
  __getitem__ self idx σ =
  match dataset_getitem (dataset self) idx with
  | Ok item => Ok (windowed_example (tokenizer self) (text item) (seq_length self),
                   σ ++ new_tensors (tokenizer self) (text item) (seq_length self))
  | Raise e => Raise e
  end.
Proof.
  unfold __getitem__. rewrite bind_run.
  destruct (dataset_getitem _ _) as [item|e]; cbn [lift]; [|done].
  rewrite bind_run, tokenizer_call_run.
  set (ids := input_ids_row _ _ _). set (mask := attention_mask_row _ _ _).
  (* encoding['input_ids'].clone() *)
  rewrite bind_run. unfold dict_getitem at 1.
  rewrite lookup_insert_ne, lookup_insert_eq by done. cbn [lift].
  rewrite bind_run. unfold clone. rewrite bind_run.
  rewrite (load_new _ _ _ (Mat [ids])) by done.
  unfold alloc. rewrite <- app_assoc, length_app. cbn [app length].
  (* the masked assignment *)
  rewrite bind_run. unfold dict_getitem at 1. rewrite lookup_insert_eq. cbn [lift].
  rewrite bind_run. unfold dict_getitem at 1.
  rewrite !lookup_insert_ne, lookup_insert_eq by done. cbn [lift].
  rewrite bind_run, (load_new _ _ _ (Mat [ids])) by done.
  rewrite bind_run. unfold setitem_mask. rewrite bind_run.
  rewrite (load_new _ _ _ (Mat [ids])) by done.
  rewrite bind_run, masked_fill_row. cbn [lift].
  rewrite write_new by (by eexists). cbn [list_insert insert].
  (* the comprehension *)
  rewrite squeeze_items_run.
  - unfold windowed_example, new_tensors. fold ids mask. do 2 f_equal.
    erewrite !omap_insert_Some by (rewrite lookup_new; reflexivity).
    by rewrite omap_empty.
  - repeat (apply map_Forall_insert_2; [rewrite lookup_new; by eexists|]).
    apply map_Forall_empty.
Qed.

(** ** Indexing the corpus *)

Lemma dataset_getitem_in_range (ds : list Item) (key : Z) :
  - Z.of_nat (length ds) ≤ key < Z.of_nat (length ds) →
  ∃ item, dataset_getitem ds key = Ok item.
Proof.
  intros Hkey. unfold dataset_getitem.
  set (i := if decide (key < 0) then _ else _).
  assert (0 ≤ i < Z.of_nat (length ds)) as Hi by (subst i; case_decide; lia).
  rewrite decide_True by done.
  destruct (lookup_lt_is_Some_2 ds (Z.to_nat i)) as [item Hitem]; [lia|].
  rewrite Hitem. by eexists.
Qed.

Lemma dataset_getitem_out_of_range (ds : list Item) (key : Z) :
  key < - Z.of_nat (length ds) ∨ Z.of_nat (length ds) ≤ key →
  dataset_getitem ds key = Raise IndexError.
Proof.
  intros Hkey. unfold dataset_getitem.
  rewrite decide_False; [done|]. case_decide; lia.
Qed.

Lemma dataset_getitem_negative (ds : list Item) (k : Z) :
  1 ≤ k ≤ Z.of_nat (length ds) →
  dataset_getitem ds (- k) = dataset_getitem ds (Z.of_nat (length ds) - k).
Proof.
  intros Hk. unfold dataset_getitem.
  rewrite (decide_True (P := - k < 0)) by lia.
  rewrite (decide_False (P := Z.of_nat (length ds) - k < 0)) by lia.
  by replace (- k + Z.of_nat (length ds)) with (Z.of_nat (length ds) - k) by lia.
Qed.

Lemma dataset_getitem_row (ds : list Item) (idx : Z) (item : Item) :
  0 ≤ idx → ds !! Z.to_nat idx = Some item → dataset_getitem ds idx = Ok item.
Proof.
  intros Hidx Hitem. pose proof (lookup_lt_Some _ _ _ Hitem).
  unfold dataset_getitem. rewrite (decide_False (P := idx < 0)) by lia.
  rewrite decide_True by lia. by rewrite Hitem.
Qed.

Lemma char_tokenizer_pads : pads_to_max_length char_tokenizer.
Proof.
  intros txt n Hn. cbn.
  rewrite !length_app, length_take, !length_replicate. lia.
Qed.

Lemma get_sequence_length_positive (g : Globals) (epoch : Z) :
  valid_globals g → 0 ≤ epoch →
  ∃ n, get_sequence_length g epoch = Ok n ∧ min_length g ≤ n ≤ max_length g.
Proof.
  intros (Hm & HM & HT) He. eexists.
  rewrite get_sequence_length_value by lia. split; [reflexivity|].
  assert (0 ≤ (max_length g - min_length g) * epoch / num_epochs g)
    by (apply Z.div_pos; nia).
  lia.
Qed.

(** ** The adapter: properties *)

(** C3, as the specification states it, fails: on a corpus of two rows the
    index [-1] is below 0, and [__getitem__] returns the example of the last
    row instead of raising. *)
Lemma negative_index_not_rejected :
  -1 < 0 ∧
  returned (__getitem__ two_row_adapter (-1) [])
  = Ok (windowed_example char_tokenizer "wxyz" 3) ∧
  ¬ (∀ self idx σ, idx < 0 ∨ __len__ self ≤ idx →
       __getitem__ self idx σ = Raise IndexError).
Proof.
  split; [lia|]. split; [by rewrite getitem_run|].
  intros Hall. specialize (Hall two_row_adapter (-1) [] (or_introl eq_refl)).
  rewrite getitem_run in Hall. discriminate Hall.
Qed.

(** C3, amended. [__getitem__] passes the index to the corpus unchecked: it
    fails with an [IndexError] if [index < -length()] or
    [index >= length()], and returns an example for every index with
    [-length() <= index < length()], so for every index with
    [0 <= index < length()]. *)
Theorem getitem_index_range (self : CurriculumDataset) (idx : Z) (σ : store) :
  (idx < - __len__ self ∨ __len__ self ≤ idx →
     __getitem__ self idx σ = Raise IndexError) ∧
  (- __len__ self ≤ idx < __len__ self →
     ∃ ex σ', __getitem__ self idx σ = Ok (ex, σ')).
Proof.
  unfold __len__. split; intros Hidx; rewrite getitem_run.
  - by rewrite dataset_getitem_out_of_range.
  - destruct (dataset_getitem_in_range (dataset self) idx Hidx) as [item ->].
    by eexists _, _.
Qed.

Lemma getitem_index_range_witness :
  __getitem__ two_row_adapter 2 [] = Raise IndexError ∧
  ∃ ex σ', __getitem__ two_row_adapter (-2) [] = Ok (ex, σ').
Proof.
  split.
  - apply (proj1 (getitem_index_range two_row_adapter 2 [])).
    change (__len__ two_row_adapter) with 2. lia.
  - apply (proj2 (getitem_index_range two_row_adapter (-2) [])).
    change (__len__ two_row_adapter) with 2. lia.
Defined.

(** C4. In every example [__getitem__] returns, the labels are parallel to
    the token ids; a position whose token id is the padding token id has the
    label -100, and a position whose token id is another one has that token
    id as its label. *)
Theorem getitem_labels (self : CurriculumDataset) (idx : Z) (σ σ' : store)
    (ex : gmap string (tensor Z)) :
  __getitem__ self idx σ = Ok (ex, σ') →
  ∃ ids labels : list Z,
    ex !! "input_ids" = Some (Vec ids) ∧ ex !! "labels" = Some (Vec labels) ∧
    length labels = length ids ∧
    ∀ (i : nat) (token : Z), ids !! i = Some token →
      (token = pad_token_id (tokenizer self) → labels !! i = Some (-100)) ∧
      (token ≠ pad_token_id (tokenizer self) → labels !! i = Some token).
Proof.
  rewrite getitem_run. destruct (dataset_getitem _ _) as [item|e]; [|done].
  intros [= <- _]. eexists _, _. unfold windowed_example.
  split; [rewrite !lookup_insert_ne by done; apply lookup_insert_eq|].
  split; [apply lookup_insert_eq|].
  split; [by rewrite length_fmap|].
  intros i token Htoken. rewrite list_lookup_fmap, Htoken. cbn. unfold label_of.
  split; intros Hpad.
  - by rewrite bool_decide_eq_true_2.
  - by rewrite bool_decide_eq_false_2.
Qed.

Lemma getitem_labels_witness :
  __getitem__ two_row_adapter 0 []
  = Ok (windowed_example char_tokenizer "ab" 3, new_tensors char_tokenizer "ab" 3) ∧
  ∃ ids labels : list Z,
    windowed_example char_tokenizer "ab" 3 !! "input_ids" = Some (Vec ids) ∧
    windowed_example char_tokenizer "ab" 3 !! "labels" = Some (Vec labels) ∧
    length labels = length ids ∧
    ∀ (i : nat) (token : Z), ids !! i = Some token →
      (token = 1 → labels !! i = Some (-100)) ∧
      (token ≠ 1 → labels !! i = Some token).
Proof.
  split; [vm_compute; reflexivity|].
  apply (getitem_labels two_row_adapter 0 [] (new_tensors char_tokenizer "ab" 3)).
  vm_compute. reflexivity.
Defined.

(** C5, as the specification states it, fails: the adapter hands the length
    to the tokenizer and neither pads nor truncates itself.  Under valid
    schedule parameters that give epoch 0 the length 1, with a tokenizer
    that keeps its two special tokens, the example at the valid index 0 has
    four token ids and four labels. *)
Lemma getitem_length_not_enforced :
  valid_globals length_one ∧
  __init__ length_one two_rows special_tokens_tokenizer 0
  = Ok {| dataset := two_rows; tokenizer := special_tokens_tokenizer; seq_length := 1 |} ∧
  returned (__getitem__
              {| dataset := two_rows; tokenizer := special_tokens_tokenizer; seq_length := 1 |}
              0 [])
  = Ok (<["labels" := Vec [0; 97; 98; 2]]>
        (<["attention_mask" := Vec [1; 1; 1; 1]]>
        (<["input_ids" := Vec [0; 97; 98; 2]]> ∅))) ∧
  ¬ (∀ (g : Globals) (ds : list Item) (tok : Tokenizer) (epoch idx : Z) (σ σ' : store)
       (self : CurriculumDataset) (ex : gmap string (tensor Z)),
       __init__ g ds tok epoch = Ok self → 0 ≤ idx < __len__ self →
       __getitem__ self idx σ = Ok (ex, σ') →
       ∃ ids labels : list Z,
         ex !! "input_ids" = Some (Vec ids) ∧ ex !! "labels" = Some (Vec labels) ∧
         Z.of_nat (length ids) = seq_length self ∧
         Z.of_nat (length labels) = seq_length self).
Proof.
  split; [unfold valid_globals; cbn; lia|]. split; [reflexivity|].
  split; [by rewrite getitem_run|].
  intros Hall.
  destruct (Hall length_one two_rows special_tokens_tokenizer 0 0 []
              (new_tensors special_tokens_tokenizer "ab" 1)
              {| dataset := two_rows; tokenizer := special_tokens_tokenizer; seq_length := 1 |}
              (windowed_example special_tokens_tokenizer "ab" 1))
    as (ids & labels & Hids & _ & Hlen & _).
  - reflexivity.
  - split; [lia | reflexivity].
  - by rewrite getitem_run.
  - unfold windowed_example in Hids.
    rewrite !lookup_insert_ne, lookup_insert_eq in Hids by done.
    injection Hids as <-. discriminate Hlen.
Qed.

(** C5, amended. An adapter built for an epoch at which the schedule returns
    [L] has [L] as its sequence length, and at every valid index
    [__getitem__] returns an example whose token ids are the row the
    tokenizer returns for the text of that record under [max_length = L],
    and whose labels have as many positions as the token ids.  Both have
    exactly [L] positions if and only if that row of the tokenizer has [L]
    positions: the adapter neither pads nor truncates itself. *)
Theorem getitem_lengths (g : Globals) (ds : list Item) (tok : Tokenizer)
    (epoch idx L : Z) (σ : store) :
  get_sequence_length g epoch = Ok L →
  0 ≤ idx < Z.of_nat (length ds) →
  ∃ (self : CurriculumDataset) (item : Item) (ex : gmap string (tensor Z)) (σ' : store)
    (ids labels : list Z),
    __init__ g ds tok epoch = Ok self ∧ seq_length self = L ∧
    __len__ self = Z.of_nat (length ds) ∧
    ds !! Z.to_nat idx = Some item ∧
    __getitem__ self idx σ = Ok (ex, σ') ∧
    ex !! "input_ids" = Some (Vec ids) ∧ ex !! "labels" = Some (Vec labels) ∧
    ids = input_ids_row tok (text item) L ∧ length labels = length ids ∧
    (Z.of_nat (length ids) = L ∧ Z.of_nat (length labels) = L
     ↔ Z.of_nat (length (input_ids_row tok (text item) L)) = L).
Proof.
  intros HL Hidx.
  destruct (lookup_lt_is_Some_2 ds (Z.to_nat idx)) as [item Hitem]; [lia|].
  exists {| dataset := ds; tokenizer := tok; seq_length := L |}, item.
  eexists _, _, _, _. unfold __init__. rewrite HL, getitem_run. cbn.
  rewrite (dataset_getitem_row ds idx item) by (done || lia).
  unfold windowed_example.
  split; [reflexivity|]. split; [reflexivity|]. split; [reflexivity|].
  split; [done|]. split; [reflexivity|].
  split; [rewrite !lookup_insert_ne by done; apply lookup_insert_eq|].
  split; [apply lookup_insert_eq|].
  split; [reflexivity|]. split; [by rewrite length_fmap|].
  rewrite length_fmap. tauto.
Qed.

Lemma getitem_lengths_witness :
  ∃ (self : CurriculumDataset) (item : Item) (ex : gmap string (tensor Z)) (σ' : store)
    (ids labels : list Z),
    __init__ notebook two_rows char_tokenizer 1 = Ok self ∧ seq_length self = 2048 ∧
    __len__ self = 2 ∧
    two_rows !! 1%nat = Some item ∧
    __getitem__ self 1 [] = Ok (ex, σ') ∧
    ex !! "input_ids" = Some (Vec ids) ∧ ex !! "labels" = Some (Vec labels) ∧
    ids = input_ids_row char_tokenizer (text item) 2048 ∧ length labels = length ids ∧
    (Z.of_nat (length ids) = 2048 ∧ Z.of_nat (length labels) = 2048
     ↔ Z.of_nat (length (input_ids_row char_tokenizer (text item) 2048)) = 2048).
Proof.
  apply (getitem_lengths notebook two_rows char_tokenizer 1 1 2048 []).
  - reflexivity.
  - cbn. lia.
Defined.

(** C9. [__getitem__] is deterministic. The example it returns does not
    depend on the tensors already in the store; two calls with the same
    index, one after the other, return the same as one call returned twice;
    and a call only adds tensors to the store, it updates none that was
    there.  The adapter and the corpus are never written to: the code
    assigns to no attribute of [self]. *)
Theorem getitem_idempotent (self : CurriculumDataset) (idx : Z) (σ1 σ2 : store) :
  returned (__getitem__ self idx σ1) = returned (__getitem__ self idx σ2) ∧
  returned (getitem_twice self idx σ1)
    = (ex ← returned (__getitem__ self idx σ1); mret (ex, ex)) ∧
  match __getitem__ self idx σ1 with
  | Ok (_, σ') => σ1 `prefix_of` σ'
  | Raise _ => True
  end.
Proof.
  unfold getitem_twice. rewrite !bind_run, !getitem_run.
  destruct (dataset_getitem _ _) as [item|e] eqn:Hitem; [|done].
  rewrite bind_run, getitem_run, Hitem. cbn.
  repeat split. by apply prefix_app_r.
Qed.

(** C10. Over a non-empty corpus, for [1 <= k <= length()], [get(-k)] does
    not fail: it returns the example that [get(length() - k)] returns,
    because the index goes unchecked to the corpus, which counts a negative
    index from the end. *)
Theorem getitem_negative_index (self : CurriculumDataset) (k : Z) (σ : store) :
  1 ≤ k ≤ __len__ self →
  ∃ (ex : gmap string (tensor Z)) (σ1 σ2 : store),
    __getitem__ self (- k) σ = Ok (ex, σ1) ∧
    __getitem__ self (__len__ self - k) σ = Ok (ex, σ2).
Proof.
  unfold __len__. intros Hk. rewrite !getitem_run.
  rewrite <- dataset_getitem_negative by done.
  destruct (dataset_getitem_in_range (dataset self) (- k)) as [item ->]; [lia|].
  by eexists _, _, _.
Qed.

Lemma getitem_negative_index_witness :
  ∃ (ex : gmap string (tensor Z)) (σ1 σ2 : store),
    __getitem__ two_row_adapter (- 2) [] = Ok (ex, σ1) ∧
    __getitem__ two_row_adapter (__len__ two_row_adapter - 2) [] = Ok (ex, σ2).
Proof.
  apply (getitem_negative_index two_row_adapter 2 []).
  change (__len__ two_row_adapter) with 2. lia.
Defined.

(** ** More on the schedule *)

Lemma floor_quotient_bounds (a T : Z) : 0 < T → T * (a / T) ≤ a < T * (a / T) + T.
Proof.
  intros HT. pose proof (Z.div_mod a T). pose proof (Z.mod_pos_bound a T). lia.
Qed.

(** X1. For valid parameters and an epoch [>= 0] the schedule never falls
    below [min_length]: the length it returns is positive. *)
Theorem get_sequence_length_at_least_min (g : Globals) (epoch : Z) :
  valid_globals g → 0 ≤ epoch →
  ∃ n, get_sequence_length g epoch = Ok n ∧ min_length g ≤ n ∧ 0 < n.
Proof.
  intros Hg He. destruct (get_sequence_length_positive g epoch Hg He) as (n & Hn & Hrange).
  exists n. destruct Hg. repeat split; [done|lia..].
Qed.

Lemma get_sequence_length_at_least_min_witness :
  ∃ n, get_sequence_length notebook 2 = Ok n ∧ min_length notebook ≤ n ∧ 0 < n.
Proof.
  apply (get_sequence_length_at_least_min notebook 2); [|lia].
  unfold valid_globals. cbn. lia.
Defined.

(** X2. When [min_length < max_length], the schedule reaches [max_length]
    exactly from epoch [num_epochs] on: at an epoch [>= 0] it returns
    [max_length] if and only if the epoch is at least [num_epochs]. *)
Theorem get_sequence_length_saturates_iff (g : Globals) (epoch : Z) :
  0 < num_epochs g → min_length g < max_length g → 0 ≤ epoch →
  get_sequence_length g epoch = Ok (max_length g) ↔ num_epochs g ≤ epoch.
Proof.
  intros HT Hlt He. rewrite get_sequence_length_value by lia.
  pose proof (floor_quotient_bounds ((max_length g - min_length g) * epoch) (num_epochs g) HT).
  split.
  - intros [= Hmin]. nia.
  - intros Hge. f_equal. nia.
Qed.

Lemma get_sequence_length_saturates_iff_witness :
  get_sequence_length notebook 3 = Ok (max_length notebook) ↔ num_epochs notebook ≤ 3.
Proof. apply (get_sequence_length_saturates_iff notebook 3); cbn; lia. Defined.

(** X3. When the span [max_length - min_length] is at least [num_epochs],
    every epoch before [num_epochs] gets a strictly longer sequence than the
    one before it. *)
Theorem get_sequence_length_strictly_increasing (g : Globals) (epoch : Z) :
  0 < num_epochs g → num_epochs g ≤ max_length g - min_length g →
  0 ≤ epoch → epoch < num_epochs g →
  ∃ a b,
    get_sequence_length g epoch = Ok a ∧ get_sequence_length g (epoch + 1) = Ok b ∧ a < b.
Proof.
  intros HT Hspan He Hlt. eexists _, _. rewrite !get_sequence_length_value by lia.
  split; [reflexivity|]. split; [reflexivity|].
  pose proof (floor_quotient_bounds ((max_length g - min_length g) * epoch) (num_epochs g) HT).
  pose proof (floor_quotient_bounds ((max_length g - min_length g) * (epoch + 1)) (num_epochs g) HT).
  nia.
Qed.

Lemma get_sequence_length_strictly_increasing_witness :
  ∃ a b,
    get_sequence_length notebook 2 = Ok a ∧ get_sequence_length notebook (2 + 1) = Ok b ∧ a < b.
Proof. apply (get_sequence_length_strictly_increasing notebook 2); cbn; lia. Defined.

(** X4. When [num_epochs] divides the span [max_length - min_length], the
    schedule is exactly linear up to [num_epochs]: epoch [e] gets
    [min_length + e * ((max_length - min_length) / num_epochs)]. *)
Theorem get_sequence_length_linear (g : Globals) (epoch : Z) :
  0 < num_epochs g → min_length g ≤ max_length g →
  (num_epochs g | max_length g - min_length g) →
  0 ≤ epoch → epoch ≤ num_epochs g →
  get_sequence_length g epoch
  = Ok (min_length g + epoch * ((max_length g - min_length g) / num_epochs g)).
Proof.
  intros HT HM [step Hstep] He HeT. rewrite get_sequence_length_value by lia.
  rewrite Hstep, Z.div_mul by lia.
  replace (step * num_epochs g * epoch) with (step * epoch * num_epochs g) by lia.
  rewrite Z.div_mul by lia. f_equal. nia.
Qed.

Lemma get_sequence_length_linear_witness :
  get_sequence_length notebook 2
  = Ok (min_length notebook + 2 * ((max_length notebook - min_length notebook) / num_epochs notebook)).
Proof.
  apply (get_sequence_length_linear notebook 2); cbn; try lia.
  exists 1024. reflexivity.
Defined.

(** X5. The schedule does not clamp from below: for valid parameters with
    [min_length < max_length] and a negative epoch it returns
    [min_length + (max_length - min_length) * epoch // num_epochs], which is
    strictly below [min_length]. *)
Theorem get_sequence_length_negative_epoch (g : Globals) (epoch : Z) :
  valid_globals g → min_length g < max_length g → epoch < 0 →
  ∃ n, get_sequence_length g epoch = Ok n ∧
       n = min_length g + (max_length g - min_length g) * epoch / num_epochs g ∧
       n < min_length g.
Proof.
  intros (Hm & HM & HT) Hlt He. eexists. rewrite get_sequence_length_value by lia.
  split; [reflexivity|].
  pose proof (floor_quotient_bounds ((max_length g - min_length g) * epoch) (num_epochs g) HT).
  split; nia.
Qed.

Lemma get_sequence_length_negative_epoch_witness :
  ∃ n, get_sequence_length notebook (-1) = Ok n ∧
       n = min_length notebook
           + (max_length notebook - min_length notebook) * (-1) / num_epochs notebook ∧
       n < min_length notebook.
Proof.
  apply (get_sequence_length_negative_epoch notebook (-1)); [|cbn; lia..].
  unfold valid_globals. cbn. lia.
Defined.

(** ** The epoch loop: auxiliary facts *)

Lemma py_range_lookup (n : Z) (i : nat) (x : Z) :
  py_range n !! i = Some x ↔ x = Z.of_nat i ∧ (i < Z.to_nat n)%nat.
Proof.
  unfold py_range. rewrite list_lookup_fmap, fmap_Some. split.
  - intros (j & Hj & ->). apply lookup_seq in Hj as [-> ?]. done.
  - intros [-> Hi]. exists i. split; [|done]. by apply lookup_seq.
Qed.

Lemma length_py_range (n : Z) : length (py_range n) = Z.to_nat n.
Proof. unfold py_range. by rewrite length_fmap, length_seq. Qed.

Lemma for_each_Forall2 {A B : Type} (body : A → result B) (xs : list A) (ys : list B) :
  for_each body xs = Ok ys ↔ Forall2 (λ x y, body x = Ok y) xs ys.
Proof.
  revert ys. induction xs as [|x xs IH]; intros ys; cbn.
  - split; [intros [= <-]; constructor | by intros ->%Forall2_nil_inv_l].
  - split.
    + destruct (body x) as [y|e] eqn:Hx; [|done]. cbn.
      destruct (for_each body xs) as [ys'|e] eqn:Hxs; [|done].
      intros [= <-]. constructor; [done|]. by apply IH.
    + intros (y & ys' & Hy & Hys' & ->)%Forall2_cons_inv_l.
      apply IH in Hys'. rewrite Hy, Hys'. reflexivity.
Qed.

Lemma for_each_first_failure {A B : Type} (body : A → result B) (x : A) (xs : list A)
    (e : exception) :
  body x = Raise e → for_each body (x :: xs) = Raise e.
Proof. intros Hx. cbn. by rewrite Hx. Qed.

(** The body of the loop at an epoch where the division is defined. *)
Lemma epoch_body_run (g : Globals) (splits : gmap string (list Item)) (tok : Tokenizer)
    (epoch : Z) (train validation : list Item) (n : Z) :
  splits !! "train" = Some train → splits !! "validation" = Some validation →
  get_sequence_length g epoch = Ok n →
  epoch_body g splits tok epoch
  = Ok {| train_dataset := {| dataset := train; tokenizer := tok; seq_length := n |};
          eval_dataset := {| dataset := validation; tokenizer := tok; seq_length := n |};
          shown_epoch := epoch + 1; shown_epochs := num_epochs g; shown_length := n |}.
Proof.
  intros Htrain Hval Hn. unfold epoch_body, splits_getitem, __init__.
  rewrite Htrain, Hval, Hn. reflexivity.
Qed.

(** The loop, when both splits are there: one pass per epoch of the range. *)
Lemma training_loop_run (g : Globals) (splits : gmap string (list Item)) (tok : Tokenizer)
    (train validation : list Item) :
  splits !! "train" = Some train → splits !! "validation" = Some validation →
  ∃ runs, training_loop g splits tok = Ok runs ∧
    length runs = Z.to_nat (num_epochs g) ∧
    ∀ (i : nat) (run : EpochRun), runs !! i = Some run →
      ∃ n, get_sequence_length g (Z.of_nat i) = Ok n ∧
        run = {| train_dataset := {| dataset := train; tokenizer := tok; seq_length := n |};
                 eval_dataset := {| dataset := validation; tokenizer := tok; seq_length := n |};
                 shown_epoch := Z.of_nat i + 1; shown_epochs := num_epochs g;
                 shown_length := n |}.
Proof.
  intros Htrain Hval. unfold training_loop.
  set (run_of (epoch : Z) :=
    {| train_dataset := {| dataset := train; tokenizer := tok;
         seq_length := Z.min (max_length g)
           (min_length g + (max_length g - min_length g) * epoch / num_epochs g) |};
       eval_dataset := {| dataset := validation; tokenizer := tok;
         seq_length := Z.min (max_length g)
           (min_length g + (max_length g - min_length g) * epoch / num_epochs g) |};
       shown_epoch := epoch + 1; shown_epochs := num_epochs g;
       shown_length := Z.min (max_length g)
           (min_length g + (max_length g - min_length g) * epoch / num_epochs g) |}).
  assert (Hbody : ∀ i epoch, py_range (num_epochs g) !! i = Some epoch →
            get_sequence_length g epoch = Ok (shown_length (run_of epoch)) ∧
            epoch_body g splits tok epoch = Ok (run_of epoch)).
  { intros i epoch [-> Hi]%py_range_lookup.
    assert (get_sequence_length g (Z.of_nat i) = Ok (shown_length (run_of (Z.of_nat i)))) as Hn
      by (apply get_sequence_length_value; lia).
    split; [done|]. by apply epoch_body_run. }
  exists (run_of <$> py_range (num_epochs g)). split; [|split].
  - apply for_each_Forall2, Forall2_fmap_r, Forall2_same_length_lookup.
    split; [done|]. intros i x y Hx Hy. assert (x = y) as <- by congruence.
    by apply (Hbody i).
  - by rewrite length_fmap, length_py_range.
  - intros i run. rewrite list_lookup_fmap, fmap_Some.
    intros (epoch & Hepoch & ->). destruct (Hbody i epoch Hepoch) as [Hn _].
    apply py_range_lookup in Hepoch as [-> _]. by eexists.
Qed.

Lemma epoch_body_inv (g : Globals) (splits : gmap string (list Item)) (tok : Tokenizer)
    (epoch : Z) (run : EpochRun) :
  epoch_body g splits tok epoch = Ok run →
  ∃ train validation n,
    splits !! "train" = Some train ∧ splits !! "validation" = Some validation ∧
    get_sequence_length g epoch = Ok n ∧
    run = {| train_dataset := {| dataset := train; tokenizer := tok; seq_length := n |};
             eval_dataset := {| dataset := validation; tokenizer := tok; seq_length := n |};
             shown_epoch := epoch + 1; shown_epochs := num_epochs g; shown_length := n |}.
Proof.
  unfold epoch_body, splits_getitem, __init__.
  destruct (splits !! "train") as [train|]; [|done]. cbn.
  destruct (get_sequence_length g epoch) as [n|e]; [|done]. cbn.
  destruct (splits !! "validation") as [validation|]; [|done]. cbn.
  intros [= <-]. by eexists _, _, _.
Qed.

Lemma training_loop_lookup (g : Globals) (splits : gmap string (list Item)) (tok : Tokenizer)
    (runs : list EpochRun) (i : nat) (run : EpochRun) :
  training_loop g splits tok = Ok runs → runs !! i = Some run →
  (i < Z.to_nat (num_epochs g))%nat ∧ epoch_body g splits tok (Z.of_nat i) = Ok run.
Proof.
  intros Hruns%for_each_Forall2 Hrun.
  destruct (Forall2_lookup_r _ _ _ _ _ Hruns Hrun) as (epoch & Hepoch & Hbody).
  apply py_range_lookup in Hepoch as [-> Hi]. done.
Qed.

(** ** The epoch loop: properties *)

(** X6. With both splits in the corpus, the loop raises nothing, whatever
    the module constants are: it makes [max(0, num_epochs)] passes.  The
    division by zero of the schedule is out of its reach, since
    [range(num_epochs)] is empty when [num_epochs] is 0. *)
Theorem training_loop_completes (g : Globals) (splits : gmap string (list Item))
    (tok : Tokenizer) :
  is_Some (splits !! "train") → is_Some (splits !! "validation") →
  ∃ runs, training_loop g splits tok = Ok runs ∧
          Z.of_nat (length runs) = Z.max 0 (num_epochs g).
Proof.
  intros [train Htrain] [validation Hval].
  destruct (training_loop_run g splits tok train validation Htrain Hval)
    as (runs & Hruns & Hlen & _).
  exists runs. split; [done|]. lia.
Qed.

Lemma training_loop_completes_witness :
  ∃ runs, training_loop {| max_length := 4096; min_length := 1024; num_epochs := 0 |}
            two_splits char_tokenizer = Ok runs ∧
          Z.of_nat (length runs) = Z.max 0 0.
Proof.
  apply (training_loop_completes {| max_length := 4096; min_length := 1024; num_epochs := 0 |}
           two_splits char_tokenizer); vm_compute; by eexists.
Defined.

(** X7. In pass [i] of a loop that completes, the line printed shows epoch
    [i + 1] of [num_epochs] and the length that the schedule gives to epoch
    [i]; the training adapter and the evaluation adapter both have that
    length, and they are built over the train split and the validation
    split with the one tokenizer. *)
Theorem training_loop_pass (g : Globals) (splits : gmap string (list Item)) (tok : Tokenizer)
    (runs : list EpochRun) (i : nat) (run : EpochRun) :
  training_loop g splits tok = Ok runs → runs !! i = Some run →
  shown_epoch run = Z.of_nat i + 1 ∧ shown_epochs run = num_epochs g ∧
  get_sequence_length g (Z.of_nat i) = Ok (shown_length run) ∧
  seq_length (train_dataset run) = shown_length run ∧
  seq_length (eval_dataset run) = shown_length run ∧
  splits !! "train" = Some (dataset (train_dataset run)) ∧
  splits !! "validation" = Some (dataset (eval_dataset run)) ∧
  tokenizer (train_dataset run) = tok ∧ tokenizer (eval_dataset run) = tok.
Proof.
  intros Hruns Hrun.
  destruct (training_loop_lookup _ _ _ _ _ _ Hruns Hrun) as [_ Hbody].
  apply epoch_body_inv in Hbody as (train & validation & n & Htrain & Hval & Hn & ->).
  done.
Qed.

Lemma training_loop_pass_witness :
  let runs := [pass_over_two_splits 0 1024; pass_over_two_splits 1 2048;
               pass_over_two_splits 2 3072] in
  let run := pass_over_two_splits 2 3072 in
  training_loop notebook two_splits char_tokenizer = Ok runs ∧ runs !! 2%nat = Some run ∧
  shown_epoch run = 2 + 1 ∧ shown_epochs run = 3 ∧
  get_sequence_length notebook 2 = Ok (shown_length run) ∧
  seq_length (train_dataset run) = shown_length run ∧
  seq_length (eval_dataset run) = shown_length run ∧
  two_splits !! "train" = Some (dataset (train_dataset run)) ∧
  two_splits !! "validation" = Some (dataset (eval_dataset run)) ∧
  tokenizer (train_dataset run) = char_tokenizer ∧
  tokenizer (eval_dataset run) = char_tokenizer.
Proof.
  intros runs run.
  assert (Hruns : training_loop notebook two_splits char_tokenizer = Ok runs)
    by reflexivity.
  split; [exact Hruns|]. split; [reflexivity|].
  exact (training_loop_pass notebook two_splits char_tokenizer runs 2 run Hruns eq_refl).
Defined.

(** X8. For valid parameters with [min_length < max_length], no pass of the
    loop works at [max_length]: every length it shows is at least
    [min_length] and strictly below [max_length], because the last epoch of
    [range(num_epochs)] is [num_epochs - 1]. *)
Theorem training_loop_below_max (g : Globals) (splits : gmap string (list Item))
    (tok : Tokenizer) (runs : list EpochRun) :
  valid_globals g → min_length g < max_length g →
  training_loop g splits tok = Ok runs →
  Forall (λ run, min_length g ≤ shown_length run < max_length g ∧
                 seq_length (train_dataset run) < max_length g) runs.
Proof.
  intros (Hm & HM & HT) Hlt Hruns. apply Forall_lookup. intros i run Hrun.
  destruct (training_loop_lookup _ _ _ _ _ _ Hruns Hrun) as [Hi Hbody].
  apply epoch_body_inv in Hbody as (train & validation & n & _ & _ & Hn & ->). cbn.
  rewrite get_sequence_length_value in Hn by lia. injection Hn as <-.
  pose proof (floor_quotient_bounds
                ((max_length g - min_length g) * Z.of_nat i) (num_epochs g) HT).
  assert (Z.of_nat i < num_epochs g) by lia.
  nia.
Qed.

Lemma training_loop_below_max_witness :
  Forall (λ run, min_length notebook ≤ shown_length run < max_length notebook ∧
                 seq_length (train_dataset run) < max_length notebook)
    [pass_over_two_splits 0 1024; pass_over_two_splits 1 2048; pass_over_two_splits 2 3072].
Proof.
  apply (training_loop_below_max notebook two_splits char_tokenizer).
  - unfold valid_globals. cbn. lia.
  - cbn. lia.
  - reflexivity.
Defined.

(** X9. For [min_length <= max_length], the lengths of the passes never
    decrease along the loop. *)
Theorem training_loop_lengths_sorted (g : Globals) (splits : gmap string (list Item))
    (tok : Tokenizer) (runs : list EpochRun) (i j : nat) (a b : EpochRun) :
  min_length g ≤ max_length g →
  training_loop g splits tok = Ok runs →
  (i ≤ j)%nat → runs !! i = Some a → runs !! j = Some b →
  shown_length a ≤ shown_length b.
Proof.
  intros HM Hruns Hij Ha Hb.
  destruct (training_loop_lookup _ _ _ _ _ _ Hruns Ha) as [Hi Hbody_a].
  destruct (training_loop_lookup _ _ _ _ _ _ Hruns Hb) as [Hj Hbody_b].
  apply epoch_body_inv in Hbody_a as (? & ? & na & _ & _ & Hna & ->).
  apply epoch_body_inv in Hbody_b as (? & ? & nb & _ & _ & Hnb & ->). cbn.
  rewrite get_sequence_length_value in Hna, Hnb by lia.
  injection Hna as <-. injection Hnb as <-.
  pose proof (scaled_quotient_mono (max_length g - min_length g) (num_epochs g)
                (Z.of_nat i) (Z.of_nat j)).
  lia.
Qed.

Lemma training_loop_lengths_sorted_witness :
  shown_length (pass_over_two_splits 0 1024) ≤ shown_length (pass_over_two_splits 2 3072).
Proof.
  apply (training_loop_lengths_sorted notebook two_splits char_tokenizer
           [pass_over_two_splits 0 1024; pass_over_two_splits 1 2048;
            pass_over_two_splits 2 3072] 0 2);
    [cbn; lia | reflexivity | lia | reflexivity | reflexivity].
Defined.

(** X10. The loop looks a split up only inside a pass.  With
    [num_epochs <= 0] it makes no pass and raises nothing, even over a
    corpus without splits; with [num_epochs >= 1] a missing train split, or
    a missing validation split, is a [KeyError] in the first pass. *)
Theorem training_loop_missing_split (g : Globals) (splits : gmap string (list Item))
    (tok : Tokenizer) :
  (num_epochs g ≤ 0 → training_loop g splits tok = Ok []) ∧
  (1 ≤ num_epochs g → splits !! "train" = None ∨ splits !! "validation" = None →
     training_loop g splits tok = Raise KeyError).
Proof.
  unfold training_loop, py_range. split.
  - intros HT. replace (Z.to_nat (num_epochs g)) with 0%nat by lia. reflexivity.
  - intros HT Hmissing.
    destruct (Z.to_nat (num_epochs g)) as [|k] eqn:Hk; [lia|].
    cbn [seq fmap list_fmap]. apply for_each_first_failure.
    unfold epoch_body, splits_getitem, __init__.
    rewrite get_sequence_length_value by lia.
    destruct Hmissing as [-> | Hval]; [done|].
    destruct (splits !! "train"); cbn; [by rewrite Hval | done].
Qed.

Lemma training_loop_missing_split_witness :
  training_loop {| max_length := 4096; min_length := 1024; num_epochs := -1 |}
    ∅ char_tokenizer = Ok [] ∧
  training_loop notebook (<["train" := two_rows]> ∅) char_tokenizer = Raise KeyError.
Proof.
  split.
  - apply (proj1 (training_loop_missing_split
                    {| max_length := 4096; min_length := 1024; num_epochs := -1 |}
                    ∅ char_tokenizer)). cbn. lia.
  - apply (proj2 (training_loop_missing_split notebook (<["train" := two_rows]> ∅)
                    char_tokenizer)); [cbn; lia|]. right. reflexivity.
Defined.

(** ** More on the adapter *)

(** X11. At an index [>= 0] that holds a row of the corpus, [__getitem__]
    returns an example with exactly the three fields [input_ids],
    [attention_mask] and [labels]; the token ids and the mask are the rows
    the tokenizer made for the text of that row at the adapter's length,
    untouched by the masking of the labels; and the call leaves three new
    tensors in the store. *)
Theorem getitem_of_row (self : CurriculumDataset) (idx : Z) (σ : store) (item : Item) :
  0 ≤ idx → dataset self !! Z.to_nat idx = Some item →
  ∃ (ex : gmap string (tensor Z)) (σ' : store),
    __getitem__ self idx σ = Ok (ex, σ') ∧
    ex !! "input_ids"
      = Some (Vec (input_ids_row (tokenizer self) (text item) (seq_length self))) ∧
    ex !! "attention_mask"
      = Some (Vec (attention_mask_row (tokenizer self) (text item) (seq_length self))) ∧
    dom ex = {[ "input_ids"; "attention_mask"; "labels" ]} ∧
    length σ' = (length σ + 3)%nat.
Proof.
  intros Hidx Hitem. eexists _, _. rewrite getitem_run.
  rewrite (dataset_getitem_row _ _ _ Hidx Hitem). split; [reflexivity|].
  unfold windowed_example.
  split; [rewrite !lookup_insert_ne by done; apply lookup_insert_eq|].
  split; [rewrite lookup_insert_ne by done; apply lookup_insert_eq|].
  split; [rewrite !dom_insert_L, dom_empty_L; set_solver|].
  by rewrite length_app.
Qed.

Lemma getitem_of_row_witness :
  ∃ (ex : gmap string (tensor Z)) (σ' : store),
    __getitem__ two_row_adapter 1 [] = Ok (ex, σ') ∧
    ex !! "input_ids"
      = Some (Vec (input_ids_row char_tokenizer "wxyz" 3)) ∧
    ex !! "attention_mask"
      = Some (Vec (attention_mask_row char_tokenizer "wxyz" 3)) ∧
    dom ex = {[ "input_ids"; "attention_mask"; "labels" ]} ∧
    length σ' = (length (@nil (tensor Z)) + 3)%nat.
Proof.
  apply (getitem_of_row two_row_adapter 1 [] {| text := "wxyz" |}); [lia | reflexivity].
Defined.

(** X12. When the padding token id is not the sentinel -100 itself, the
    labels of a returned example never hold the padding token id. *)
Theorem getitem_labels_without_pad (self : CurriculumDataset) (idx : Z) (σ σ' : store)
    (ex : gmap string (tensor Z)) :
  pad_token_id (tokenizer self) ≠ -100 →
  __getitem__ self idx σ = Ok (ex, σ') →
  ∃ labels : list Z,
    ex !! "labels" = Some (Vec labels) ∧ pad_token_id (tokenizer self) ∉ labels.
Proof.
  intros Hpad. rewrite getitem_run.
  destruct (dataset_getitem _ _) as [item|e]; [|done]. intros [= <- _].
  eexists. split; [apply lookup_insert_eq|].
  intros (token & Hlabel & _)%list_elem_of_fmap. unfold label_of in Hlabel.
  case_bool_decide; congruence.
Qed.

Lemma getitem_labels_without_pad_witness :
  ∃ labels : list Z,
    windowed_example char_tokenizer "ab" 3 !! "labels" = Some (Vec labels) ∧
    pad_token_id (tokenizer two_row_adapter) ∉ labels.
Proof.
  apply (getitem_labels_without_pad two_row_adapter 0 []
           (new_tensors char_tokenizer "ab" 3)); [cbn; lia|].
  vm_compute. reflexivity.
Defined.

(** X13. When the padding token id is not -100, the labels of a returned
    example are equal to its token ids if and only if no token id is the
    padding token id. *)
Theorem getitem_labels_equal_ids (self : CurriculumDataset) (idx : Z) (σ σ' : store)
    (ex : gmap string (tensor Z)) :
  pad_token_id (tokenizer self) ≠ -100 →
  __getitem__ self idx σ = Ok (ex, σ') →
  ∃ ids : list Z,
    ex !! "input_ids" = Some (Vec ids) ∧
    (ex !! "labels" = Some (Vec ids) ↔ pad_token_id (tokenizer self) ∉ ids).
Proof.
  intros Hpad. rewrite getitem_run.
  destruct (dataset_getitem _ _) as [item|e]; [|done]. intros [= <- _].
  eexists. split; [unfold windowed_example; rewrite !lookup_insert_ne by done;
                   apply lookup_insert_eq|].
  unfold windowed_example. rewrite lookup_insert_eq.
  set (ids := input_ids_row _ _ _). clearbody ids. split.
  - intros [= Hsame] Hin. apply list_elem_of_lookup in Hin as [i Hi].
    apply (f_equal (λ l, l !! i)) in Hsame.
    rewrite list_lookup_fmap, Hi in Hsame. cbn in Hsame. unfold label_of in Hsame.
    rewrite bool_decide_eq_true_2 in Hsame by done. congruence.
  - intros Hnotin. do 2 f_equal. rewrite <- (list_fmap_id ids) at 2.
    apply list_fmap_ext. intros i token Htoken. unfold label_of.
    rewrite bool_decide_eq_false_2; [done|].
    intros ->. apply Hnotin. by eapply list_elem_of_lookup_2.
Qed.

Lemma getitem_labels_equal_ids_witness :
  ∃ ids : list Z,
    windowed_example char_tokenizer "wxyz" 3 !! "input_ids" = Some (Vec ids) ∧
    (windowed_example char_tokenizer "wxyz" 3 !! "labels" = Some (Vec ids)
     ↔ pad_token_id (tokenizer two_row_adapter) ∉ ids).
Proof.
  apply (getitem_labels_equal_ids two_row_adapter 1 []
           (new_tensors char_tokenizer "wxyz" 3)); [cbn; lia|].
  vm_compute. reflexivity.
Defined.

(** X14. Over an empty corpus the adapter has length 0 and [__getitem__]
    raises [IndexError] at every index, negative ones too. *)
Theorem getitem_empty_corpus (self : CurriculumDataset) (idx : Z) (σ : store) :
  dataset self = [] →
  __len__ self = 0 ∧ __getitem__ self idx σ = Raise IndexError.
Proof.
  intros Hempty. unfold __len__. rewrite getitem_run, Hempty. split; [done|].
  rewrite dataset_getitem_out_of_range; [done|]. cbn. lia.
Qed.

Lemma getitem_empty_corpus_witness :
  __len__ {| dataset := []; tokenizer := char_tokenizer; seq_length := 3 |} = 0 ∧
  __getitem__ {| dataset := []; tokenizer := char_tokenizer; seq_length := 3 |} (-1) []
  = Raise IndexError.
Proof.
  apply (getitem_empty_corpus {| dataset := []; tokenizer := char_tokenizer; seq_length := 3 |}).
  reflexivity.
Defined.

(** ** The attention window *)

Lemma list_mul_singleton {A : Type} (x : A) (n : Z) :
  list_mul [x] n = replicate (Z.to_nat n) x.
Proof.
  unfold list_mul. induction (Z.to_nat n) as [|k IH]; [reflexivity|].
  cbn. f_equal. exact IH.
Qed.

(** X15. The assignment always takes place: afterwards the attention
    window holds one entry 512 per hidden layer, none for
    [num_hidden_layers <= 0], and the number of layers is as before.  For
    at least one layer the size read for printing is 512; for
    [num_hidden_layers <= 0] the read raises [IndexError] and the empty
    list stays assigned.  The notebook has the two lines twice: running
    them again gives the same configuration and the same outcome. *)
Theorem set_attention_window_outcome (config : Config) :
  (1 ≤ num_hidden_layers config →
     set_attention_window config
     = ({| num_hidden_layers := num_hidden_layers config;
           attention_window := replicate (Z.to_nat (num_hidden_layers config)) 512 |},
        Ok 512)) ∧
  (num_hidden_layers config ≤ 0 →
     set_attention_window config
     = ({| num_hidden_layers := num_hidden_layers config; attention_window := [] |},
        Raise IndexError)) ∧
  set_attention_window (set_attention_window config).1 = set_attention_window config.
Proof.
  unfold set_attention_window. cbn [num_hidden_layers attention_window fst].
  rewrite list_mul_singleton. split; [|split]; [intros Hn..|reflexivity].
  - destruct (Z.to_nat (num_hidden_layers config)) as [|k] eqn:Hk; [lia|].
    unfold list_getitem. rewrite (decide_False (P := 0 < 0)) by lia.
    rewrite decide_True by (cbn [replicate length]; lia). reflexivity.
  - replace (Z.to_nat (num_hidden_layers config)) with 0%nat by lia. reflexivity.
Qed.

Lemma set_attention_window_outcome_witness :
  set_attention_window {| num_hidden_layers := 12; attention_window := [256; 256] |}
  = ({| num_hidden_layers := 12; attention_window := replicate 12 512 |}, Ok 512) ∧
  set_attention_window {| num_hidden_layers := 0; attention_window := [256; 256] |}
  = ({| num_hidden_layers := 0; attention_window := [] |}, Raise IndexError).
Proof.
  split.
  - apply (proj1 (set_attention_window_outcome
                    {| num_hidden_layers := 12; attention_window := [256; 256] |})).
    cbn. lia.
  - apply (proj1 (proj2 (set_attention_window_outcome
                    {| num_hidden_layers := 0; attention_window := [256; 256] |}))).
    cbn. lia.
Defined.

(** ** [replace_attention_layers] *)

(** Induction over a module tree, with the hypothesis for every child of a
    container. *)
Lemma module_tree_ind {W : Type} (P : module W → Prop) :
  (∀ l, P (Linear l)) →
  (∀ e h d q k v qg kg vg, P (LongformerSelfAttention e h d q k v qg kg vg)) →
  (∀ children, Forall P children → P (Container children)) →
  ∀ m, P m.
Proof.
  intros Hlinear Hattention Hcontainer.
  fix IH 1. intros [l | e h d q k v qg kg vg | children].
  - apply Hlinear.
  - apply Hattention.
  - apply Hcontainer. induction children as [|c cs IHcs]; constructor; [apply IH | apply IHcs].
Qed.

Section ModuleFacts.
Context {W Rng : Type}.
Variable draw : list Z → Rng → W * Rng.

Lemma new_linear_layer (n_in n_out : Z) (with_bias : bool) (r : Rng) :
  in_features (new_linear draw n_in n_out with_bias r).1 = n_in ∧
  out_features (new_linear draw n_in n_out with_bias r).1 = n_out ∧
  has_bias (new_linear draw n_in n_out with_bias r).1 = with_bias.
Proof.
  unfold new_linear. destruct (draw [n_out; n_in] r) as [w r1].
  destruct with_bias; [destruct (draw [n_out] r1) as [b r2]|]; done.
Qed.

Lemma replace_container (children : list (module W)) (r : Rng) :
  replace_attention_layers draw (Container children) r
  = ((Container (walk_children draw children r).1), (walk_children draw children r).2).
Proof.
  change (replace_attention_layers draw (Container children) r)
    with (let '(cs, r') := walk_children draw children r in (Container cs, r')).
  by destruct (walk_children draw children r).
Qed.

Lemma walk_children_cons (c : module W) (cs : list (module W)) (r : Rng) :
  walk_children draw (c :: cs) r
  = ((replace_attention_layers draw c r).1
       :: (walk_children draw cs (replace_attention_layers draw c r).2).1,
     (walk_children draw cs (replace_attention_layers draw c r).2).2).
Proof.
  cbn [walk_children]. destruct (replace_attention_layers draw c r) as [c' r1].
  cbn. by destruct (walk_children draw cs r1).
Qed.

Lemma replace_attention (e h d : Z) (q k v qg kg vg : linear W) (r : Rng) :
  let qg' := new_linear draw e (h * d) (has_bias qg) r in
  let kg' := new_linear draw e (h * d) (has_bias kg) qg'.2 in
  let vg' := new_linear draw e (h * d) (has_bias vg) kg'.2 in
  replace_attention_layers draw (LongformerSelfAttention e h d q k v qg kg vg) r
  = (LongformerSelfAttention e h d q k v qg'.1 kg'.1 vg'.1, vg'.2).
Proof.
  cbn [replace_attention_layers].
  destruct (new_linear draw e (h * d) (has_bias qg) r) as [qg' r1]. cbn.
  destruct (new_linear draw e (h * d) (has_bias kg) r1) as [kg' r2]. cbn.
  by destruct (new_linear draw e (h * d) (has_bias vg) r2) as [vg' r3].
Qed.

(** X16. After the call, the three global projections of every
    self-attention layer of the model map [embed_dim] features to
    [num_heads * head_dim] features. *)
Theorem replace_attention_layers_sizes (m : module W) (r : Rng) :
  Forall global_sizes_fit (attention_layers (replace_attention_layers draw m r).1).
Proof.
  revert r. induction m as [l | e h d q k v qg kg vg | children IH] using module_tree_ind;
    intros r.
  - constructor.
  - rewrite replace_attention. cbn. constructor; [|constructor].
    repeat constructor; apply new_linear_layer.
  - rewrite replace_container. cbn. revert r.
    induction IH as [|c cs Hc _ IHcs]; intros r; [constructor|].
    rewrite walk_children_cons. cbn. apply Forall_app. split; [apply Hc | apply IHcs].
Qed.

(** X17. The call changes nothing but the global projections, and of those
    it keeps whether each has a bias: the tree has the same shape, and
    every linear layer outside the global projections, the local query,
    key and value projections among them, keeps its sizes and its
    parameters. *)
Theorem replace_attention_layers_outline (m : module W) (r : Rng) :
  outline_of (replace_attention_layers draw m r).1 = outline_of m.
Proof.
  revert r. induction m as [l | e h d q k v qg kg vg | children IH] using module_tree_ind;
    intros r.
  - reflexivity.
  - rewrite replace_attention. cbn.
    by rewrite !(proj2 (proj2 (new_linear_layer _ _ _ _))).
  - rewrite replace_container. cbn. f_equal. revert r.
    induction IH as [|c cs Hc _ IHcs]; intros r; [reflexivity|].
    rewrite walk_children_cons. cbn. by rewrite Hc, IHcs.
Qed.

(** X18. The parameters and sizes of the old global projections are
    thrown away: two models that differ only there come out of the call
    equal, when the generator starts in the same state. *)
Theorem replace_attention_layers_forgets (m1 m2 : module W) (r : Rng) :
  outline_of m1 = outline_of m2 →
  replace_attention_layers draw m1 r = replace_attention_layers draw m2 r.
Proof.
  revert m2 r.
  induction m1 as [l | e h d q k v qg kg vg | children IH] using module_tree_ind;
    intros [l2 | e2 h2 d2 q2 k2 v2 qg2 kg2 vg2 | children2] r Hsame; try done.
  - by injection Hsame as <-.
  - cbn in Hsame. injection Hsame as <- <- <- <- <- <- Hq Hk Hv.
    rewrite !replace_attention. cbn. by rewrite Hq, Hk, Hv.
  - cbn in Hsame. injection Hsame as Hsame.
    rewrite !replace_container.
    enough (walk_children draw children r = walk_children draw children2 r) as -> by done.
    revert children2 r Hsame.
    induction IH as [|c cs Hc _ IHcs]; intros [|c2 cs2] r Hsame; try done.
    cbn in Hsame. injection Hsame as Hc2 Hcs2.
    rewrite !walk_children_cons, (Hc c2 r Hc2).
    by rewrite (IHcs cs2 _ Hcs2).
Qed.

(** X19. A model without a self-attention layer comes out as it went in,
    and the call draws nothing from the generator. *)
Theorem replace_attention_layers_no_attention (m : module W) (r : Rng) :
  attention_layers m = [] → replace_attention_layers draw m r = (m, r).
Proof.
  revert r. induction m as [l | e h d q k v qg kg vg | children IH] using module_tree_ind;
    intros r Hnone; try done.
  rewrite replace_container.
  enough (walk_children draw children r = (children, r)) as -> by done.
  cbn in Hnone. revert r.
  induction IH as [|c cs Hc _ IHcs]; intros r; [reflexivity|].
  cbn in Hnone. apply app_eq_nil in Hnone as [Hc_none Hcs_none].
  rewrite walk_children_cons, (Hc r Hc_none). cbn. by rewrite (IHcs Hcs_none).
Qed.
End ModuleFacts.

Lemma replace_attention_layers_forgets_witness :
  replace_attention_layers counting_draw small_model 1%nat
  = replace_attention_layers counting_draw small_model_variant 1%nat.
Proof.
  apply (replace_attention_layers_forgets counting_draw small_model small_model_variant 1%nat).
  reflexivity.
Defined.

Lemma replace_attention_layers_no_attention_witness :
  replace_attention_layers counting_draw plain_model 1%nat = (plain_model, 1%nat).
Proof.
  apply (replace_attention_layers_no_attention counting_draw plain_model 1%nat).
  reflexivity.
Defined.

(** ** The loop and the adapter together *)

(** X20. In a loop that completes under valid parameters, with a tokenizer
    that pads and truncates to the requested length, every example that a
    pass's training or evaluation adapter returns at an index of its split
    has token ids and labels of exactly the length that the pass shows. *)
Theorem training_loop_example_lengths (g : Globals) (splits : gmap string (list Item))
    (tok : Tokenizer) (runs : list EpochRun) (i : nat) (run : EpochRun)
    (self : CurriculumDataset) (idx : Z) (σ : store) :
  valid_globals g → pads_to_max_length tok →
  training_loop g splits tok = Ok runs → runs !! i = Some run →
  self = train_dataset run ∨ self = eval_dataset run →
  0 ≤ idx < __len__ self →
  ∃ (ex : gmap string (tensor Z)) (σ' : store) (ids labels : list Z),
    __getitem__ self idx σ = Ok (ex, σ') ∧
    ex !! "input_ids" = Some (Vec ids) ∧ ex !! "labels" = Some (Vec labels) ∧
    Z.of_nat (length ids) = shown_length run ∧
    Z.of_nat (length labels) = shown_length run.
Proof.
  intros Hg Htok Hruns Hrun Hself Hidx.
  destruct (training_loop_lookup _ _ _ _ _ _ Hruns Hrun) as [Hi Hbody].
  apply epoch_body_inv in Hbody as (train & validation & n & _ & _ & Hn & ->).
  destruct (get_sequence_length_positive g (Z.of_nat i) Hg) as (n' & Hn' & Hrange); [lia|].
  assert (n' = n) as -> by congruence.
  assert (seq_length self = n ∧ tokenizer self = tok) as [Hlen Htokenizer]
    by (by destruct Hself as [-> | ->]).
  unfold __len__ in Hidx.
  destruct (dataset_getitem_in_range (dataset self) idx) as [item Hitem]; [lia|].
  destruct (Htok (text item) n) as [Hids _]; [destruct Hg; lia|].
  eexists _, _, _, _. rewrite getitem_run, Hitem, Hlen, Htokenizer.
  split; [reflexivity|]. unfold windowed_example.
  split; [rewrite !lookup_insert_ne by done; apply lookup_insert_eq|].
  split; [apply lookup_insert_eq|].
  cbn. by rewrite length_fmap.
Qed.

Lemma training_loop_example_lengths_witness :
  ∃ (ex : gmap string (tensor Z)) (σ' : store) (ids labels : list Z),
    __getitem__ (train_dataset (pass_over_two_splits 1 2048)) 0 [] = Ok (ex, σ') ∧
    ex !! "input_ids" = Some (Vec ids) ∧ ex !! "labels" = Some (Vec labels) ∧
    Z.of_nat (length ids) = shown_length (pass_over_two_splits 1 2048) ∧
    Z.of_nat (length labels) = shown_length (pass_over_two_splits 1 2048).
Proof.
  apply (training_loop_example_lengths notebook two_splits char_tokenizer
           [pass_over_two_splits 0 1024; pass_over_two_splits 1 2048;
            pass_over_two_splits 2 3072] 1 (pass_over_two_splits 1 2048)).
  - unfold valid_globals. cbn. lia.
  - exact char_tokenizer_pads.
  - reflexivity.
  - reflexivity.
  - by left.
  - split; [lia | reflexivity].
Defined.
